(** * unicorn-bios: the INT 13h disk services and the interrupt dispatcher

    A shallow embedding of [UB::BIOS::Disk] (reset, readSectors,
    checkExtensions, extendedReadSectors) and of [UB::Machine]
    (start, the dispatcher installed by [_setup]).

    The handlers are written in a small monad over the engine: a
    computation takes the engine, returns a value and the engine it
    leaves, and emits the memory accesses and debug lines it performs, in
    order. *)

From Stdlib Require Import ZArith List Bool Lia.
Import ListNotations.
Local Open Scope Z_scope.

(** ** Fixed-width unsigned integers *)

Definition u8  (x : Z) : Z := Z.land x 0xFF.
Definition u16 (x : Z) : Z := Z.land x 0xFFFF.
Definition u64 (x : Z) : Z := x mod 2 ^ 64.

(** The two byte views of a 16-bit register ([AH]/[AL] of [AX], ...). *)
Definition lo8 (r : Z) : Z := Z.land r 0xFF.
Definition hi8 (r : Z) : Z := Z.land (Z.shiftr r 8) 0xFF.
Definition set_lo8 (r v : Z) : Z := Z.lor (Z.land r 0xFF00) (Z.land v 0xFF).
Definition set_hi8 (r v : Z) : Z :=
  Z.lor (Z.land r 0x00FF) (Z.shiftl (Z.land v 0xFF) 8).

(** ** Trace of a handler *)

(** The lines a disk handler sends to [machine.ui().debug()], by the
    values they print. *)
Inductive DebugLine : Type :=
| DbgResetting (drive : Z)
| DbgDriveNotSupported (drive : Z)
| DbgReadingCHS (sectors drive cylinder head sector destination es bx : Z)
| DbgCheckingExtensions
| DbgReadingDAP (dapAddress drive ds si lba offset size destination
                 destinationSegment destinationOffset : Z)
| DbgNoData
| DbgWrote (count destination : Z).

Inductive Event : Type :=
| EvDebug (line : DebugLine)
| EvRead (address size : Z)
| EvWrite (address : Z) (bytes : list Z).

Definition isWrite (ev : Event) : bool :=
  match ev with EvWrite _ _ => true | _ => false end.

Definition writes (evs : list Event) : list Event := filter isWrite evs.

(** ** The engine *)

Module Engine.

(** Modelled from the spec: the class [UB::Engine] (UB/Engine.hpp), whose
    source is missing.  Section 3 gives the guest memory as one flat byte
    array addressed by physical address and the register file as the 8086
    one; section 2 gives the 8-bit and 16-bit views of AX, BX, CX and DX,
    the segment registers and the carry flag. *)
Record t : Type := mk {
  r_ax : Z; r_bx : Z; r_cx : Z; r_dx : Z;
  r_si : Z; r_di : Z;
  r_cs : Z; r_ds : Z; r_es : Z; r_ss : Z;
  r_cf : bool;
  memory : Z -> Z
}.

Definition al (e : t) : Z := lo8 (r_ax e).
Definition ah (e : t) : Z := hi8 (r_ax e).
Definition cl (e : t) : Z := lo8 (r_cx e).
Definition ch (e : t) : Z := hi8 (r_cx e).
Definition dl (e : t) : Z := lo8 (r_dx e).
Definition dh (e : t) : Z := hi8 (r_dx e).
Definition bx (e : t) : Z := u16 (r_bx e).
Definition cx (e : t) : Z := u16 (r_cx e).
Definition si (e : t) : Z := u16 (r_si e).
Definition ds (e : t) : Z := u16 (r_ds e).
Definition es (e : t) : Z := u16 (r_es e).
Definition cf (e : t) : bool := r_cf e.

Definition set_ax (f : Z -> Z) (e : t) : t :=
  mk (f (r_ax e)) (r_bx e) (r_cx e) (r_dx e) (r_si e) (r_di e)
     (r_cs e) (r_ds e) (r_es e) (r_ss e) (r_cf e) (memory e).
Definition set_al (v : Z) : t -> t := set_ax (fun r => set_lo8 r v).
Definition set_ah (v : Z) : t -> t := set_ax (fun r => set_hi8 r v).
Definition set_bx (v : Z) (e : t) : t :=
  mk (r_ax e) (u16 v) (r_cx e) (r_dx e) (r_si e) (r_di e)
     (r_cs e) (r_ds e) (r_es e) (r_ss e) (r_cf e) (memory e).
Definition set_cx (v : Z) (e : t) : t :=
  mk (r_ax e) (r_bx e) (u16 v) (r_dx e) (r_si e) (r_di e)
     (r_cs e) (r_ds e) (r_es e) (r_ss e) (r_cf e) (memory e).
Definition set_cf (b : bool) (e : t) : t :=
  mk (r_ax e) (r_bx e) (r_cx e) (r_dx e) (r_si e) (r_di e)
     (r_cs e) (r_ds e) (r_es e) (r_ss e) b (memory e).

(** Modelled from the spec: [Engine::getAddress], whose source is missing.
    Section 2: [seg:off -> seg*16 + off]; the arguments are 16 bits wide. *)
Definition getAddress (segment offset : Z) : Z :=
  u16 segment * 16 + u16 offset.

(** Modelled from the spec: the bulk memory read behind [Engine::read],
    whose source is missing: the [size] bytes found from [address] on.  The
    spec gives the read no failure result, so it has none here. *)
Definition peek (mem : Z -> Z) (address size : Z) : list Z :=
  map (fun i => mem (address + Z.of_nat i)) (seq 0 (Z.to_nat size)).

(** Modelled from the spec: the bulk memory write behind [Engine::write],
    whose source is missing: the memory with [bytes] stored from [address]
    on.  The spec gives the write no failure result, so it has none here. *)
Definition poke (mem : Z -> Z) (address : Z) (bytes : list Z) : Z -> Z :=
  fun a =>
    if (address <=? a) && (a <? address + Z.of_nat (length bytes))
    then nth (Z.to_nat (a - address)) bytes 0
    else mem a.

Definition set_memory (mem : Z -> Z) (e : t) : t :=
  mk (r_ax e) (r_bx e) (r_cx e) (r_dx e) (r_si e) (r_di e)
     (r_cs e) (r_ds e) (r_es e) (r_ss e) (r_cf e) mem.

End Engine.

(** ** The handler monad *)

Definition M (A : Type) : Type := Engine.t -> A * Engine.t * list Event.

Definition ret {A} (a : A) : M A := fun e => (a, e, []).

Definition bind {A B} (c : M A) (k : A -> M B) : M B :=
  fun e =>
    let '(a, e1, t1) := c e in
    let '(b, e2, t2) := k a e1 in
    (b, e2, t1 ++ t2).

Declare Scope handler_scope.
Delimit Scope handler_scope with handler.
Notation "x <- c ;; k" := (bind c (fun x => k))
  (at level 61, c at next level, right associativity) : handler_scope.
Notation "c ;; k" := (bind c (fun _ => k))
  (at level 61, right associativity) : handler_scope.
Local Open Scope handler_scope.

Definition gets {A} (f : Engine.t -> A) : M A := fun e => (f e, e, []).
Definition modify (f : Engine.t -> Engine.t) : M unit :=
  fun e => (tt, f e, []).
Definition debug (line : DebugLine) : M unit :=
  fun e => (tt, e, [EvDebug line]).

(** [engine.read( address, size )] *)
Definition read (address size : Z) : M (list Z) :=
  fun e => (Engine.peek (Engine.memory e) address size, e,
            [EvRead address size]).

(** [engine.write( address, bytes )] *)
Definition write (address : Z) (bytes : list Z) : M unit :=
  fun e => (tt,
            Engine.set_memory (Engine.poke (Engine.memory e) address bytes) e,
            [EvWrite address bytes]).

(** What a run returns, the engine it leaves and what it emitted. *)
Definition result {A} (r : A * Engine.t * list Event) : A := fst (fst r).
Definition final {A} (r : A * Engine.t * list Event) : Engine.t :=
  snd (fst r).
Definition events {A} (r : A * Engine.t * list Event) : list Event := snd r.

(** ** The boot image *)

Module FAT.

Record MBR : Type := {
  isValid : bool;
  bytesPerSector : Z;
  sectorsPerTrack : Z;
  numberOfHeads : Z
}.

(** The disk image adapter [FAT::Image], as the handlers use it: the
    boot-sector fields and the two reads, by byte offset and size and by
    cylinder, head, sector and count.  Its source is missing, so an image
    is any value with these three members; the handlers only ever look at
    the vector a read returns. *)
Record Image : Type := {
  mbr : MBR;
  read : Z -> Z -> list Z;
  readCHS : Z -> Z -> Z -> Z -> list Z
}.

(** The value of a little-endian byte string. *)
Fixpoint littleEndian (bytes : list Z) : Z :=
  match bytes with
  | [] => 0
  | b :: rest => Z.lor (u8 b) (Z.shiftl (littleEndian rest) 8)
  end.

Module DAP.

Record t : Type := {
  size : Z;
  zero : Z;
  numberOfSectors : Z;
  destinationOffset : Z;
  destinationSegment : Z;
  logicalBlockAddress : Z
}.

(** Modelled from the spec: [FAT::DAP::DataSize], whose source is missing.
    Section 3: the packet is 16 bytes long. *)
Definition DataSize : Z := 16.

Definition field (data : list Z) (offset width : nat) : Z :=
  littleEndian (firstn width (skipn offset data)).

(** Modelled from the spec: the constructor of [FAT::DAP] from a
    [BinaryDataStream], whose source is missing.  Section 3: little-endian
    fields; size at 0 (1 byte), reserved at 1 (1), number of sectors at 2
    (2), destination offset at 4 (2), destination segment at 6 (2), logical
    block address at 8 (8). *)
Definition decode (data : list Z) : t := {|
  size := field data 0 1;
  zero := field data 1 1;
  numberOfSectors := field data 2 2;
  destinationOffset := field data 4 2;
  destinationSegment := field data 6 2;
  logicalBlockAddress := field data 8 8
|}.

End DAP.

End FAT.

(** ** The machine *)

Record Machine : Type := {
  _memory : Z;
  _fat : FAT.Image;
  _engine : Engine.t
}.

(** Modelled from the spec: [Machine::bootImage], whose source is missing.
    Section 3: the machine owns the disk image it was constructed with. *)
Definition bootImage (machine : Machine) : FAT.Image := _fat machine.

(** ** UB::BIOS::Disk *)

Module Disk.

Definition reset (machine : Machine) : M bool :=
  dl <- gets Engine.dl ;;
  debug (DbgResetting dl) ;;
  modify (Engine.set_cf false) ;;
  modify (Engine.set_ah 0) ;;
  ret true.

Definition readSectors (machine : Machine) : M bool :=
  driveNumber <- gets Engine.dl ;;
  sectors <- gets Engine.al ;;
  cylinder <- gets Engine.ch ;;
  sector <- gets Engine.cl ;;
  head <- gets Engine.dh ;;
  es <- gets Engine.es ;;
  bx <- gets Engine.bx ;;
  let destination := Engine.getAddress es bx in
  let image := bootImage machine in
  let error : M bool :=
    modify (Engine.set_cf true) ;;
    modify (Engine.set_ah 1) ;;
    modify (Engine.set_al 0) ;;
    ret true in
  if negb (driveNumber =? 0x00) then
    debug (DbgDriveNotSupported driveNumber) ;;
    error
  else
    debug (DbgReadingCHS sectors driveNumber cylinder head sector
                         destination es bx) ;;
    let bytes := FAT.readCHS image cylinder head sector sectors in
    if (length bytes =? 0)%nat then
      debug DbgNoData ;;
      error
    else
      write destination bytes ;;
      debug (DbgWrote (Z.of_nat (length bytes)) destination) ;;
      modify (Engine.set_cf false) ;;
      modify (Engine.set_ah 0) ;;
      modify (Engine.set_al sectors) ;;
      ret true.

Definition checkExtensions (machine : Machine) : M bool :=
  debug DbgCheckingExtensions ;;
  modify (Engine.set_bx 0xAA55) ;;
  modify (Engine.set_cf false) ;;
  modify (Engine.set_ah 0) ;;
  modify (Engine.set_cx 7) ;;
  ret true.

(** [( mbr.isValid() ) ? mbr.bytesPerSector() : 512] *)
Definition bytesPerSector (mbr : FAT.MBR) : Z :=
  if FAT.isValid mbr then FAT.bytesPerSector mbr else 512.

Definition extendedReadSectors (machine : Machine) : M bool :=
  driveNumber <- gets Engine.dl ;;
  ds <- gets Engine.ds ;;
  si <- gets Engine.si ;;
  let dapAddress := Engine.getAddress ds si in
  let image := bootImage machine in
  let mbr := FAT.mbr image in
  dapData <- read dapAddress FAT.DAP.DataSize ;;
  let dap := FAT.DAP.decode dapData in
  let destination :=
    Engine.getAddress (FAT.DAP.destinationSegment dap)
                      (FAT.DAP.destinationOffset dap) in
  let numberOfSectors := u64 (FAT.DAP.numberOfSectors dap) in
  let bytesPerSector := bytesPerSector mbr in
  let offset := u64 (FAT.DAP.logicalBlockAddress dap * bytesPerSector) in
  let size := u64 (numberOfSectors * bytesPerSector) in
  let error : M bool :=
    modify (Engine.set_cf true) ;;
    modify (Engine.set_ah 1) ;;
    ret true in
  if negb (driveNumber =? 0x00) then
    debug (DbgDriveNotSupported driveNumber) ;;
    error
  else
    debug (DbgReadingDAP dapAddress driveNumber ds si
                         (FAT.DAP.logicalBlockAddress dap) offset size
                         destination (FAT.DAP.destinationSegment dap)
                         (FAT.DAP.destinationOffset dap)) ;;
    let bytes := FAT.read image offset size in
    if (length bytes =? 0)%nat then
      debug DbgNoData ;;
      error
    else
      write destination bytes ;;
      debug (DbgWrote (Z.of_nat (length bytes)) destination) ;;
      modify (Engine.set_cf false) ;;
      modify (Engine.set_ah 0) ;;
      ret true.

End Disk.

(** ** UB::Machine *)

Section MachineFacade.

(** [Engine::start( address )]: runs the guest from [address] until the
    engine halts and says whether it ran without error.  The CPU engine
    is an outside library; the facade only hands its answer on. *)
Variable Engine_start : Z -> M bool.

Definition start (machine : Machine) : bool * Engine.t * list Event :=
  Engine_start 0x7C00 (_engine machine).

(** The per-vector handlers of [UB/Interrupts.hpp], which the dispatcher
    calls for their effect. *)
Variables int0x05 int0x10 int0x11 int0x12 int0x13 int0x14 : Machine -> M bool.
Variables int0x15 int0x16 int0x17 int0x18 int0x19 int0x1A : Machine -> M bool.

(** The callback [_setup] hands to [Engine::onInterrupt]; [i] is a
    [uint32_t]. *)
Definition onInterrupt (machine : Machine) (i : Z) : M bool :=
  match i with
  | 0x05 => int0x05 machine ;; ret true
  | 0x10 => int0x10 machine ;; ret true
  | 0x11 => int0x11 machine ;; ret true
  | 0x12 => int0x12 machine ;; ret true
  | 0x13 => int0x13 machine ;; ret true
  | 0x14 => int0x14 machine ;; ret true
  | 0x15 => int0x15 machine ;; ret true
  | 0x16 => int0x16 machine ;; ret true
  | 0x17 => int0x17 machine ;; ret true
  | 0x18 => int0x18 machine ;; ret true
  | 0x19 => int0x19 machine ;; ret true
  | 0x1A => int0x1A machine ;; ret true
  | _ => ret false
  end.

End MachineFacade.

(** * Properties *)

(** ** Byte views of a register *)

Lemma testbit_0xFF (n : Z) : Z.testbit 0xFF n = (0 <=? n) && (n <? 8).
Proof. change 0xFF with (Z.ones 8). apply Z.testbit_ones. lia. Qed.

Lemma testbit_0xFF00 (n : Z) : Z.testbit 0xFF00 n = (8 <=? n) && (n <? 16).
Proof.
  change 0xFF00 with (Z.shiftl (Z.ones 8) 8).
  destruct (Z.ltb_spec n 0) as [Hneg | Hpos].
  - rewrite Z.testbit_neg_r by lia.
    symmetry. apply andb_false_intro1. apply Z.leb_gt. lia.
  - rewrite Z.shiftl_spec, Z.testbit_ones by lia.
    destruct (Z.leb_spec 0 (n - 8)), (Z.leb_spec 8 n),
      (Z.ltb_spec (n - 8) 8), (Z.ltb_spec n 16); simpl; lia || reflexivity.
Qed.

Ltac bitwise :=
  apply Z.bits_inj'; intros n Hn;
  repeat rewrite ?Z.land_spec, ?Z.lor_spec, ?Z.shiftr_spec, ?Z.shiftl_spec,
    ?testbit_0xFF, ?testbit_0xFF00, ?Z.testbit_0_l by lia;
  replace (n + 8 - 8) with n by lia;
  repeat match goal with
    | |- context [?a <=? ?b] => destruct (Z.leb_spec a b); try lia
    | |- context [?a <? ?b] => destruct (Z.ltb_spec a b); try lia
    end;
  simpl;
  rewrite ?andb_false_r, ?andb_true_r, ?orb_false_r, ?orb_false_l;
  try reflexivity.

Lemma lo8_set_lo8 (r v : Z) : lo8 (set_lo8 r v) = lo8 v.
Proof. unfold lo8, set_lo8. bitwise. Qed.

Lemma hi8_set_lo8 (r v : Z) : hi8 (set_lo8 r v) = hi8 r.
Proof. unfold hi8, set_lo8. bitwise. Qed.

Lemma hi8_set_hi8 (r v : Z) : hi8 (set_hi8 r v) = lo8 v.
Proof. unfold hi8, lo8, set_hi8. bitwise. Qed.

Lemma lo8_set_hi8 (r v : Z) : lo8 (set_hi8 r v) = lo8 r.
Proof. unfold lo8, set_hi8. bitwise. Qed.

Lemma lo8_lo8 (r : Z) : lo8 (lo8 r) = lo8 r.
Proof. unfold lo8. bitwise. Qed.

Lemma set_hi8_set_hi8 (r v w : Z) : set_hi8 (set_hi8 r v) w = set_hi8 r w.
Proof. unfold set_hi8. bitwise. Qed.

Lemma set_lo8_lo8 (r : Z) : set_lo8 r (lo8 r) = Z.land r 0xFFFF.
Proof.
  unfold set_lo8, lo8. change 0xFFFF with (Z.ones 16).
  apply Z.bits_inj'; intros n Hn.
  repeat rewrite ?Z.land_spec, ?Z.lor_spec, ?testbit_0xFF, ?testbit_0xFF00,
    ?Z.testbit_ones by lia.
  destruct (Z.leb_spec 0 n), (Z.leb_spec 8 n), (Z.ltb_spec n 8),
    (Z.ltb_spec n 16); simpl;
    rewrite ?andb_false_r, ?andb_true_r, ?orb_false_r; lia || reflexivity.
Qed.

Lemma lo8_range (r : Z) : 0 <= lo8 r < 256.
Proof.
  unfold lo8. change 0xFF with (Z.ones 8). rewrite Z.land_ones by lia.
  apply Z.mod_pos_bound. reflexivity.
Qed.

Lemma u16_range (r : Z) : 0 <= u16 r < 65536.
Proof.
  unfold u16. change 0xFFFF with (Z.ones 16). rewrite Z.land_ones by lia.
  apply Z.mod_pos_bound. reflexivity.
Qed.

Lemma u16_small (r : Z) : 0 <= r < 65536 -> u16 r = r.
Proof.
  intros H. unfold u16. change 0xFFFF with (Z.ones 16).
  rewrite Z.land_ones by lia. apply Z.mod_small. exact H.
Qed.

(** ** Guest memory *)

Lemma poke_inside (mem : Z -> Z) (address : Z) (bytes : list Z) (i : nat) :
  (i < length bytes)%nat ->
  Engine.poke mem address bytes (address + Z.of_nat i) = nth i bytes 0.
Proof.
  intros Hi. unfold Engine.poke.
  replace (address + Z.of_nat i - address) with (Z.of_nat i) by lia.
  rewrite Nat2Z.id.
  destruct (Z.leb_spec address (address + Z.of_nat i)); [| lia].
  destruct (Z.ltb_spec (address + Z.of_nat i)
                       (address + Z.of_nat (length bytes))); [| lia].
  reflexivity.
Qed.

Lemma poke_outside (mem : Z -> Z) (address : Z) (bytes : list Z) (a : Z) :
  a < address \/ address + Z.of_nat (length bytes) <= a ->
  Engine.poke mem address bytes a = mem a.
Proof.
  intros Ha. unfold Engine.poke.
  destruct (Z.leb_spec address a), (Z.ltb_spec a (address + Z.of_nat (length bytes)));
    simpl; lia || reflexivity.
Qed.

(** Reading back what was written gives the bytes written. *)
Lemma peek_poke (mem : Z -> Z) (address : Z) (bytes : list Z) :
  Engine.peek (Engine.poke mem address bytes) address
              (Z.of_nat (length bytes)) = bytes.
Proof.
  unfold Engine.peek. rewrite Nat2Z.id.
  apply nth_ext with (d := 0) (d' := 0).
  - rewrite length_map, length_seq. reflexivity.
  - intros n Hn. rewrite length_map, length_seq in Hn.
    rewrite nth_indep with (d' := Engine.poke mem address bytes (address + Z.of_nat 0))
      by (rewrite length_map, length_seq; exact Hn).
    rewrite (map_nth (fun i => Engine.poke mem address bytes (address + Z.of_nat i))).
    rewrite seq_nth by exact Hn. simpl (0 + n)%nat.
    apply poke_inside. exact Hn.
Qed.

Lemma length_peek (mem : Z -> Z) (address size : Z) :
  length (Engine.peek mem address size) = Z.to_nat size.
Proof. unfold Engine.peek. rewrite length_map, length_seq. reflexivity. Qed.

(** ** What each handler does, path by path *)

(** The bytes [readSectors] asks the image for, and where they go. *)
Definition chsBytes (machine : Machine) (e : Engine.t) : list Z :=
  FAT.readCHS (bootImage machine)
              (Engine.ch e) (Engine.dh e) (Engine.cl e) (Engine.al e).

Definition chsDestination (e : Engine.t) : Z :=
  Engine.getAddress (Engine.es e) (Engine.bx e).

(** The packet [extendedReadSectors] finds at DS:SI, and what it derives
    from it. *)
Definition dapAddress (e : Engine.t) : Z :=
  Engine.getAddress (Engine.ds e) (Engine.si e).

Definition dapAt (e : Engine.t) : FAT.DAP.t :=
  FAT.DAP.decode (Engine.peek (Engine.memory e) (dapAddress e) FAT.DAP.DataSize).

Definition dapDestination (e : Engine.t) : Z :=
  Engine.getAddress (FAT.DAP.destinationSegment (dapAt e))
                    (FAT.DAP.destinationOffset (dapAt e)).

Definition dapOffset (machine : Machine) (e : Engine.t) : Z :=
  u64 (FAT.DAP.logicalBlockAddress (dapAt e)
       * Disk.bytesPerSector (FAT.mbr (bootImage machine))).

Definition dapSize (machine : Machine) (e : Engine.t) : Z :=
  u64 (u64 (FAT.DAP.numberOfSectors (dapAt e))
       * Disk.bytesPerSector (FAT.mbr (bootImage machine))).

Definition dapBytes (machine : Machine) (e : Engine.t) : list Z :=
  FAT.read (bootImage machine) (dapOffset machine e) (dapSize machine e).


Definition stored (address : Z) (bytes : list Z) (e : Engine.t) : Engine.t :=
  Engine.set_memory (Engine.poke (Engine.memory e) address bytes) e.

Lemma reset_run (machine : Machine) (e : Engine.t) :
  Disk.reset machine e =
  (true, Engine.set_ah 0 (Engine.set_cf false e),
   [EvDebug (DbgResetting (Engine.dl e))]).
Proof. reflexivity. Qed.

Lemma checkExtensions_run (machine : Machine) (e : Engine.t) :
  Disk.checkExtensions machine e =
  (true,
   Engine.set_cx 7 (Engine.set_ah 0 (Engine.set_cf false (Engine.set_bx 0xAA55 e))),
   [EvDebug DbgCheckingExtensions]).
Proof. reflexivity. Qed.

Definition chsError (e : Engine.t) : Engine.t :=
  Engine.set_al 0 (Engine.set_ah 1 (Engine.set_cf true e)).

Definition dapError (e : Engine.t) : Engine.t :=
  Engine.set_ah 1 (Engine.set_cf true e).

Definition chsLine (e : Engine.t) : DebugLine :=
  DbgReadingCHS (Engine.al e) (Engine.dl e) (Engine.ch e) (Engine.dh e)
                (Engine.cl e) (chsDestination e) (Engine.es e) (Engine.bx e).

Definition dapLine (machine : Machine) (e : Engine.t) : DebugLine :=
  DbgReadingDAP (dapAddress e) (Engine.dl e) (Engine.ds e) (Engine.si e)
                (FAT.DAP.logicalBlockAddress (dapAt e))
                (dapOffset machine e) (dapSize machine e) (dapDestination e)
                (FAT.DAP.destinationSegment (dapAt e))
                (FAT.DAP.destinationOffset (dapAt e)).

Ltac run_handler :=
  unfold bind, gets, modify, debug, read, write, ret;
  cbv beta iota zeta;
  repeat match goal with
    | |- context [if negb ?c then _ else _] => destruct c; cbv [negb]
    | |- context [if ?c then _ else _] => destruct c
    end;
  reflexivity.

Lemma readSectors_run (machine : Machine) (e : Engine.t) :
  Disk.readSectors machine e =
  if Engine.dl e =? 0 then
    if (length (chsBytes machine e) =? 0)%nat then
      (true, chsError e, [EvDebug (chsLine e); EvDebug DbgNoData])
    else
      (true,
       Engine.set_al (Engine.al e)
         (Engine.set_ah 0
            (Engine.set_cf false
               (stored (chsDestination e) (chsBytes machine e) e))),
       [EvDebug (chsLine e);
        EvWrite (chsDestination e) (chsBytes machine e);
        EvDebug (DbgWrote (Z.of_nat (length (chsBytes machine e)))
                          (chsDestination e))])
  else
    (true, chsError e, [EvDebug (DbgDriveNotSupported (Engine.dl e))]).
Proof.
  unfold Disk.readSectors, chsError, chsLine, stored, chsDestination, chsBytes.
  run_handler.
Qed.

Lemma extendedReadSectors_run (machine : Machine) (e : Engine.t) :
  Disk.extendedReadSectors machine e =
  if Engine.dl e =? 0 then
    if (length (dapBytes machine e) =? 0)%nat then
      (true, dapError e,
       [EvRead (dapAddress e) FAT.DAP.DataSize;
        EvDebug (dapLine machine e); EvDebug DbgNoData])
    else
      (true,
       Engine.set_ah 0
         (Engine.set_cf false
            (stored (dapDestination e) (dapBytes machine e) e)),
       [EvRead (dapAddress e) FAT.DAP.DataSize;
        EvDebug (dapLine machine e);
        EvWrite (dapDestination e) (dapBytes machine e);
        EvDebug (DbgWrote (Z.of_nat (length (dapBytes machine e)))
                          (dapDestination e))])
  else
    (true, dapError e,
     [EvRead (dapAddress e) FAT.DAP.DataSize;
      EvDebug (DbgDriveNotSupported (Engine.dl e))]).
Proof.
  unfold Disk.extendedReadSectors, dapError, dapLine, stored, dapBytes,
    dapDestination, dapSize, dapOffset, dapAt, dapAddress.
  run_handler.
Qed.

Lemma length_eqb_nil {A} (l : list A) : (length l =? 0)%nat = true <-> l = [].
Proof.
  destruct l; simpl; split; intros H; reflexivity || discriminate.
Qed.

Lemma length_eqb_cons {A} (l : list A) : (length l =? 0)%nat = false <-> l <> [].
Proof.
  destruct l; simpl; split; intros H; congruence.
Qed.

Lemma dapSize_eq (machine : Machine) (e : Engine.t) :
  dapSize machine e =
  u64 (FAT.DAP.numberOfSectors (dapAt e)
       * Disk.bytesPerSector (FAT.mbr (bootImage machine))).
Proof.
  unfold dapSize, u64. apply Z.mul_mod_idemp_l. discriminate.
Qed.

(** ** Registers after the error and success epilogues *)

Lemma chsError_flags (e : Engine.t) :
  Engine.cf (chsError e) = true /\
  Engine.ah (chsError e) = 1 /\
  Engine.al (chsError e) = 0 /\
  Engine.memory (chsError e) = Engine.memory e.
Proof.
  unfold chsError, Engine.cf, Engine.ah, Engine.al. simpl.
  rewrite hi8_set_lo8, hi8_set_hi8, lo8_set_lo8. repeat split.
Qed.

Lemma dapError_flags (e : Engine.t) :
  Engine.cf (dapError e) = true /\
  Engine.ah (dapError e) = 1 /\
  Engine.al (dapError e) = Engine.al e /\
  Engine.memory (dapError e) = Engine.memory e.
Proof.
  unfold dapError, Engine.cf, Engine.ah, Engine.al. simpl.
  rewrite hi8_set_hi8, lo8_set_hi8. repeat split.
Qed.

Lemma chsSuccess_flags (address : Z) (bytes : list Z) (e : Engine.t) :
  let e' := Engine.set_al (Engine.al e)
              (Engine.set_ah 0 (Engine.set_cf false (stored address bytes e))) in
  Engine.cf e' = false /\ Engine.ah e' = 0 /\ Engine.al e' = Engine.al e /\
  Engine.memory e' = Engine.poke (Engine.memory e) address bytes.
Proof.
  unfold Engine.cf, Engine.ah, Engine.al. simpl.
  rewrite hi8_set_lo8, hi8_set_hi8, lo8_set_lo8, lo8_lo8. repeat split.
Qed.

Lemma dapSuccess_flags (address : Z) (bytes : list Z) (e : Engine.t) :
  let e' := Engine.set_ah 0 (Engine.set_cf false (stored address bytes e)) in
  Engine.cf e' = false /\ Engine.ah e' = 0 /\ Engine.al e' = Engine.al e /\
  Engine.memory e' = Engine.poke (Engine.memory e) address bytes.
Proof.
  unfold Engine.cf, Engine.ah, Engine.al. simpl.
  rewrite hi8_set_hi8, lo8_set_hi8. repeat split.
Qed.

(** ** Concrete machines *)

(** Modelled from the spec: an image over a byte string, standing for
    [FAT::Image], whose source is missing.  Section 3: [read(byte_offset,
    size)] gives the raw bytes and is empty on out-of-range;
    [read(cyl, head, sector, count)] likewise; section 4.3: the block of a
    CHS address is [(cyl * heads + head) * sectorsPerTrack + (sector - 1)]
    and a CHS read is of [sectors * bytesPerSector] bytes, with 512 bytes
    per sector when the MBR is not valid. *)
Definition fileRead (data : list Z) (offset size : Z) : list Z :=
  if (offset <? 0) || (size <? 0)
     || (Z.of_nat (length data) <? offset + size) then []
  else firstn (Z.to_nat size) (skipn (Z.to_nat offset) data).

Definition fileImage (mbr : FAT.MBR) (data : list Z) : FAT.Image := {|
  FAT.mbr := mbr;
  FAT.read := fileRead data;
  FAT.readCHS := fun cylinder head sector sectors =>
    fileRead data
      (((cylinder * FAT.numberOfHeads mbr + head) * FAT.sectorsPerTrack mbr
        + (sector - 1)) * Disk.bytesPerSector mbr)
      (sectors * Disk.bytesPerSector mbr)
|}.



(** The geometry of a 1.44 MiB floppy. *)
Definition floppyMBR : FAT.MBR := {|
  FAT.isValid := true;
  FAT.bytesPerSector := 512;
  FAT.sectorsPerTrack := 18;
  FAT.numberOfHeads := 2
|}.

(** A guest with the given AX, BX, DX, CX, SI, DS, ES and memory. *)
Definition guest (ax bx cx dx si ds es : Z) (mem : Z -> Z) : Engine.t :=
  Engine.mk ax bx cx dx si 0 0 ds es 0 false mem.

Definition machineOf (image : FAT.Image) : Machine := {|
  _memory := 0x4000000;
  _fat := image;
  _engine := guest 0 0 0 0 0 0 0 (fun _ => 0)
|}.

(** Two sectors of data. *)
Definition twoSectors : Machine :=
  machineOf (fileImage floppyMBR (repeat 0xAB 1024)).

(** AH=02h, AL=1, CH=0, CL=2, DH=0, ES:BX=1000:0000, with the drive in DL. *)
Definition chsRequest (drive : Z) : Engine.t :=
  guest 0x0201 0x0000 0x0002 drive 0 0 0x1000 (fun _ => 0).

(** A packet at 0000:0500: one sector to 2000:0000, from the block whose
    address has [lbaByte6] as its byte 6 and [lbaByte0] as its byte 0. *)
Definition packetMemory (lbaByte0 lbaByte6 : Z) : Z -> Z :=
  fun a =>
    if a =? 0x500 then 16
    else if a =? 0x502 then 1
    else if a =? 0x507 then 0x20
    else if a =? 0x508 then lbaByte0
    else if a =? 0x50E then lbaByte6
    else 0.

(** AH=42h, AL=5, DS:SI=0000:0500, with the drive in DL. *)
Definition dapRequest (drive lbaByte0 lbaByte6 : Z) : Engine.t :=
  guest 0x4205 0 0 drive 0x0500 0 0 (packetMemory lbaByte0 lbaByte6).

Example chsRequest_reads_second_sector :
  let r := Disk.readSectors twoSectors (chsRequest 0) in
  Engine.cf (final r) = false /\ Engine.ah (final r) = 0 /\
  Engine.al (final r) = 1 /\
  Engine.peek (Engine.memory (final r)) 0x10000 4 = [0xAB; 0xAB; 0xAB; 0xAB] /\
  Engine.peek (Engine.memory (final r)) 0x10200 1 = [0].
Proof. vm_compute. repeat split. Qed.

Example dapRequest_reads_second_sector :
  let r := Disk.extendedReadSectors twoSectors (dapRequest 0 1 0) in
  dapOffset twoSectors (dapRequest 0 1 0) = 512 /\
  dapSize twoSectors (dapRequest 0 1 0) = 512 /\
  dapDestination (dapRequest 0 1 0) = 0x20000 /\
  Engine.cf (final r) = false /\ Engine.ah (final r) = 0 /\
  Engine.peek (Engine.memory (final r)) 0x201FE 3 = [0xAB; 0xAB; 0].
Proof. vm_compute. repeat split. Qed.

(** * The claims *)

(** ** INT 13h / AH=02h: read sectors (CHS) *)






(** ** Drives other than 0 *)

(** The answer the specification gives for a drive other than 0. *)
Definition unsupportedDriveResponse (operation : Machine -> M bool) : Prop :=
  forall (machine : Machine) (e : Engine.t),
    Engine.dl e <> 0 ->
    Engine.cf (final (operation machine e)) = true /\
    Engine.ah (final (operation machine e)) = 1 /\
    Engine.al (final (operation machine e)) = 0.

(** C3, counterexample: with DL=1, reset and checkExtensions end in CF=0,
    and extendedReadSectors called with AL=5 ends with AL=5. *)
Lemma unsupportedDriveResponse_fails :
  ~ unsupportedDriveResponse Disk.reset /\
  ~ unsupportedDriveResponse Disk.checkExtensions /\
  ~ unsupportedDriveResponse Disk.extendedReadSectors.
Proof.
  repeat split; intros H.
  - destruct (H twoSectors (chsRequest 1)) as (Hcf & _).
    + vm_compute. discriminate.
    + vm_compute in Hcf. discriminate.
  - destruct (H twoSectors (chsRequest 1)) as (Hcf & _).
    + vm_compute. discriminate.
    + vm_compute in Hcf. discriminate.
  - destruct (H twoSectors (dapRequest 1 1 0)) as (_ & _ & Hal).
    + vm_compute. discriminate.
    + vm_compute in Hal. discriminate.
Qed.

(** C3, amended: with DL other than 0, AH=02h sets CF=1, AH=1 and AL=0,
    and AH=42h sets CF=1 and AH=1 and leaves AL as it was; AH=00h and
    AH=41h do not look at DL and end in CF=0, AH=0 whatever the drive. *)
Theorem unsupportedDrive (machine : Machine) (e : Engine.t) :
  Engine.dl e <> 0 ->
  (Engine.cf (final (Disk.readSectors machine e)) = true /\
   Engine.ah (final (Disk.readSectors machine e)) = 1 /\
   Engine.al (final (Disk.readSectors machine e)) = 0) /\
  (Engine.cf (final (Disk.extendedReadSectors machine e)) = true /\
   Engine.ah (final (Disk.extendedReadSectors machine e)) = 1 /\
   Engine.al (final (Disk.extendedReadSectors machine e)) = Engine.al e) /\
  (Engine.cf (final (Disk.reset machine e)) = false /\
   Engine.ah (final (Disk.reset machine e)) = 0) /\
  (Engine.cf (final (Disk.checkExtensions machine e)) = false /\
   Engine.ah (final (Disk.checkExtensions machine e)) = 0).
Proof.
  intros Hdl. apply Z.eqb_neq in Hdl.
  rewrite readSectors_run, extendedReadSectors_run, Hdl,
    reset_run, checkExtensions_run.
  unfold final. cbn [fst snd].
  destruct (chsError_flags e) as (Hcf & Hah & Hal & _).
  destruct (dapError_flags e) as (Hcf' & Hah' & Hal' & _).
  repeat split; try assumption;
    unfold Engine.ah; simpl; apply hi8_set_hi8.
Qed.

Lemma unsupportedDrive_witness :
  Engine.dl (dapRequest 0x80 1 0) <> 0 /\
  Engine.cf (final (Disk.readSectors twoSectors (dapRequest 0x80 1 0))) = true /\
  Engine.al (final (Disk.readSectors twoSectors (dapRequest 0x80 1 0))) = 0 /\
  Engine.cf (final (Disk.extendedReadSectors twoSectors (dapRequest 0x80 1 0)))
    = true /\
  Engine.al (final (Disk.extendedReadSectors twoSectors (dapRequest 0x80 1 0)))
    = 5.
Proof.
  assert (Hdl : Engine.dl (dapRequest 0x80 1 0) <> 0)
    by (vm_compute; discriminate).
  destruct (unsupportedDrive twoSectors (dapRequest 0x80 1 0) Hdl)
    as ((Hcf & _ & Hal) & (Hcf' & _ & Hal') & _).
  split; [exact Hdl |]. split; [exact Hcf |]. split; [exact Hal |].
  split; [exact Hcf' |]. rewrite Hal'. reflexivity.
Defined.

(** ** INT 13h / AH=00h: reset *)

(** C7: reset sets CF=0 and AH=0; it writes nothing, so guest memory is
    what it was, as are AL and every other register; and resetting again
    changes nothing more. *)
Theorem reset_is_idempotent_noop (machine : Machine) (e : Engine.t) :
  Engine.cf (final (Disk.reset machine e)) = false /\
  Engine.ah (final (Disk.reset machine e)) = 0 /\
  writes (events (Disk.reset machine e)) = [] /\
  Engine.memory (final (Disk.reset machine e)) = Engine.memory e /\
  (Engine.al (final (Disk.reset machine e)) = Engine.al e /\
   Engine.r_bx (final (Disk.reset machine e)) = Engine.r_bx e /\
   Engine.r_cx (final (Disk.reset machine e)) = Engine.r_cx e /\
   Engine.r_dx (final (Disk.reset machine e)) = Engine.r_dx e /\
   Engine.r_si (final (Disk.reset machine e)) = Engine.r_si e /\
   Engine.r_di (final (Disk.reset machine e)) = Engine.r_di e /\
   Engine.r_cs (final (Disk.reset machine e)) = Engine.r_cs e /\
   Engine.r_ds (final (Disk.reset machine e)) = Engine.r_ds e /\
   Engine.r_es (final (Disk.reset machine e)) = Engine.r_es e /\
   Engine.r_ss (final (Disk.reset machine e)) = Engine.r_ss e) /\
  final (Disk.reset machine (final (Disk.reset machine e))) =
    final (Disk.reset machine e).
Proof.
  rewrite !reset_run. unfold final, events, writes. cbn [fst snd filter isWrite].
  unfold Engine.cf, Engine.ah, Engine.al, Engine.set_ah, Engine.set_cf,
    Engine.set_ax. cbn.
  rewrite hi8_set_hi8, lo8_set_hi8, set_hi8_set_hi8.
  repeat split.
Qed.

(** ** Every disk handler answers "serviced" *)

(** C9: reset, readSectors, checkExtensions and extendedReadSectors return
    true on every path, and the dispatcher returns true for vector 0x13
    whatever the INT 13h handler did or returned. *)
Theorem disk_handlers_return_true (machine : Machine) (e : Engine.t) :
  result (Disk.reset machine e) = true /\
  result (Disk.readSectors machine e) = true /\
  result (Disk.checkExtensions machine e) = true /\
  result (Disk.extendedReadSectors machine e) = true /\
  forall h05 h10 h11 h12 h13 h14 h15 h16 h17 h18 h19 h1A,
    result (onInterrupt h05 h10 h11 h12 h13 h14 h15 h16 h17 h18 h19 h1A
                        machine 0x13 e) = true.
Proof.
  rewrite reset_run, readSectors_run, checkExtensions_run,
    extendedReadSectors_run.
  repeat split.
  - destruct (Engine.dl e =? 0); [destruct (length _ =? 0)%nat |]; reflexivity.
  - destruct (Engine.dl e =? 0); [destruct (length _ =? 0)%nat |]; reflexivity.
  - intros. unfold onInterrupt, bind, ret, result.
    destruct (h13 machine e) as [[b e'] t]. reflexivity.
Qed.

(** ** Failed reads leave guest memory alone *)

(** C10: when AH=02h or AH=42h fails, for a drive other than 0 or for an
    empty image read, the handler makes no write and guest memory is what
    it was before the call. *)
Theorem failed_reads_write_nothing (machine : Machine) (e : Engine.t) :
  (Engine.dl e <> 0 \/ chsBytes machine e = [] ->
   writes (events (Disk.readSectors machine e)) = [] /\
   Engine.memory (final (Disk.readSectors machine e)) = Engine.memory e) /\
  (Engine.dl e <> 0 \/ dapBytes machine e = [] ->
   writes (events (Disk.extendedReadSectors machine e)) = [] /\
   Engine.memory (final (Disk.extendedReadSectors machine e)) = Engine.memory e).
Proof.
  rewrite readSectors_run, extendedReadSectors_run.
  split; intros H; destruct (Z.eqb_spec (Engine.dl e) 0) as [Hdl | Hdl];
    try (split; reflexivity);
    (destruct H as [H | H]; [contradiction | rewrite H; split; reflexivity]).
Qed.

Lemma failed_reads_write_nothing_witness :
  (Engine.dl (chsRequest 0x80) <> 0 /\
   writes (events (Disk.readSectors twoSectors (chsRequest 0x80))) = []) /\
  (dapBytes twoSectors (dapRequest 0 9 0) = [] /\
   writes (events (Disk.extendedReadSectors twoSectors (dapRequest 0 9 0))) = []).
Proof.
  destruct (failed_reads_write_nothing twoSectors (chsRequest 0x80)) as (H1 & _).
  destruct (failed_reads_write_nothing twoSectors (dapRequest 0 9 0)) as (_ & H2).
  assert (Hdl : Engine.dl (chsRequest 0x80) <> 0) by (vm_compute; discriminate).
  assert (Hbytes : dapBytes twoSectors (dapRequest 0 9 0) = []) by reflexivity.
  split; split; try assumption.
  - apply H1. left. exact Hdl.
  - apply H2. right. exact Hbytes.
Defined.

(** ** INT 13h / AH=42h: extended read *)

(** The image read of AH=42h as the specification words it: [size] bytes
    at [offset], with [offset = LBA * bytesPerSector] and
    [size = numberOfSectors * bytesPerSector]. *)
Definition dapBytes_as_specified (machine : Machine) (e : Engine.t) : list Z :=
  FAT.read (bootImage machine)
    (FAT.DAP.logicalBlockAddress (dapAt e)
     * Disk.bytesPerSector (FAT.mbr (bootImage machine)))
    (FAT.DAP.numberOfSectors (dapAt e)
     * Disk.bytesPerSector (FAT.mbr (bootImage machine))).

Definition extendedReadSectors_as_specified : Prop :=
  forall (machine : Machine) (e : Engine.t),
    Engine.dl e = 0 ->
    In (EvRead (dapAddress e) 16) (events (Disk.extendedReadSectors machine e)) /\
    (dapBytes_as_specified machine e <> [] ->
     writes (events (Disk.extendedReadSectors machine e)) =
       [EvWrite (dapDestination e) (dapBytes_as_specified machine e)] /\
     Engine.cf (final (Disk.extendedReadSectors machine e)) = false /\
     Engine.ah (final (Disk.extendedReadSectors machine e)) = 0) /\
    (dapBytes_as_specified machine e = [] ->
     Engine.cf (final (Disk.extendedReadSectors machine e)) = true /\
     Engine.ah (final (Disk.extendedReadSectors machine e)) = 1).

(** C2, counterexample: a packet whose logical block address is 2^55, on
    a 512-byte-sector image of two sectors.  LBA * 512 is 2^64, past the
    end of the image, where a read is empty; the handler's 64-bit product
    is 0, so it reads sector 0 and succeeds with CF=0. *)
Lemma extendedReadSectors_as_specified_fails :
  ~ extendedReadSectors_as_specified.
Proof.
  intros H.
  destruct (H twoSectors (dapRequest 0 0 0x80)) as (_ & _ & Hempty).
  - reflexivity.
  - destruct Hempty as (Hcf & _).
    + vm_compute. reflexivity.
    + vm_compute in Hcf. discriminate.
Qed.

(** C2, amended: for every AH=42h call with DL=0 the handler first reads
    the 16-byte packet at the linear address of DS:SI; it takes the bytes
    per sector from the MBR when that is valid and 512 otherwise, and
    computes [offset = LBA * bytesPerSector] and
    [size = numberOfSectors * bytesPerSector] in unsigned 64-bit
    arithmetic, that is modulo 2^64; it reads [size] bytes at [offset]
    from the image; a non-empty result is the one thing it writes, at the
    linear address of destinationSegment:destinationOffset, with CF=0 and
    AH=0; on an empty result it writes nothing and sets CF=1 and AH=1. *)
Theorem extendedReadSectors_spec (machine : Machine) (e : Engine.t) :
  Engine.dl e = 0 ->
  (exists rest,
      events (Disk.extendedReadSectors machine e) =
        EvRead (dapAddress e) 16 :: rest) /\
  Disk.bytesPerSector (FAT.mbr (bootImage machine)) =
    (if FAT.isValid (FAT.mbr (bootImage machine))
     then FAT.bytesPerSector (FAT.mbr (bootImage machine)) else 512) /\
  dapOffset machine e =
    (FAT.DAP.logicalBlockAddress (dapAt e)
     * Disk.bytesPerSector (FAT.mbr (bootImage machine))) mod 2 ^ 64 /\
  dapSize machine e =
    (FAT.DAP.numberOfSectors (dapAt e)
     * Disk.bytesPerSector (FAT.mbr (bootImage machine))) mod 2 ^ 64 /\
  dapBytes machine e =
    FAT.read (bootImage machine) (dapOffset machine e) (dapSize machine e) /\
  (dapBytes machine e <> [] ->
   writes (events (Disk.extendedReadSectors machine e)) =
     [EvWrite (dapDestination e) (dapBytes machine e)] /\
   Engine.peek (Engine.memory (final (Disk.extendedReadSectors machine e)))
               (dapDestination e)
               (Z.of_nat (length (dapBytes machine e))) = dapBytes machine e /\
   Engine.cf (final (Disk.extendedReadSectors machine e)) = false /\
   Engine.ah (final (Disk.extendedReadSectors machine e)) = 0) /\
  (dapBytes machine e = [] ->
   writes (events (Disk.extendedReadSectors machine e)) = [] /\
   Engine.cf (final (Disk.extendedReadSectors machine e)) = true /\
   Engine.ah (final (Disk.extendedReadSectors machine e)) = 1).
Proof.
  intros Hdl. rewrite extendedReadSectors_run, Hdl. simpl (0 =? 0).
  split.
  { destruct (length _ =? 0)%nat; eexists; reflexivity. }
  split; [reflexivity |]. split; [reflexivity |].
  split; [apply dapSize_eq |]. split; [reflexivity |].
  split; intros Hbytes.
  - apply length_eqb_cons in Hbytes. rewrite Hbytes.
    unfold final, events, writes. cbn [fst snd filter isWrite].
    destruct (dapSuccess_flags (dapDestination e) (dapBytes machine e) e)
      as (Hcf & Hah & _ & Hmem).
    rewrite Hcf, Hah, Hmem. repeat split. apply peek_poke.
  - rewrite Hbytes. simpl.
    destruct (dapError_flags e) as (Hcf & Hah & _).
    unfold final. simpl. auto.
Qed.

Lemma extendedReadSectors_spec_witness :
  Engine.dl (dapRequest 0 1 0) = 0 /\
  dapBytes twoSectors (dapRequest 0 1 0) <> [] /\
  dapBytes twoSectors (dapRequest 0 9 0) = [] /\
  Engine.cf (final (Disk.extendedReadSectors twoSectors (dapRequest 0 1 0)))
    = false /\
  Engine.cf (final (Disk.extendedReadSectors twoSectors (dapRequest 0 9 0)))
    = true.
Proof.
  assert (Hfull : dapBytes twoSectors (dapRequest 0 1 0) <> [])
    by (vm_compute; discriminate).
  assert (Hnone : dapBytes twoSectors (dapRequest 0 9 0) = []) by reflexivity.
  destruct (extendedReadSectors_spec twoSectors (dapRequest 0 1 0) eq_refl)
    as (_ & _ & _ & _ & _ & Hsuccess & _).
  destruct (extendedReadSectors_spec twoSectors (dapRequest 0 9 0) eq_refl)
    as (_ & _ & _ & _ & _ & _ & Hfailure).
  split; [reflexivity |]. split; [exact Hfull |]. split; [exact Hnone |].
  split; [apply Hsuccess, Hfull | apply Hfailure, Hnone].
Defined.

(** C8: whatever the drive, the first thing extendedReadSectors does is
    read the 16 bytes of the packet at the linear address of DS:SI; with DL
    other than 0 the drive is turned down only after that read, the call
    failing with CF=1 and AH=1. *)
Theorem extendedReadSectors_reads_packet_first (machine : Machine) (e : Engine.t) :
  FAT.DAP.DataSize = 16 /\
  exists rest : list Event,
    events (Disk.extendedReadSectors machine e) =
      EvRead (dapAddress e) FAT.DAP.DataSize :: rest /\
    (Engine.dl e <> 0 ->
     rest = [EvDebug (DbgDriveNotSupported (Engine.dl e))] /\
     Engine.cf (final (Disk.extendedReadSectors machine e)) = true /\
     Engine.ah (final (Disk.extendedReadSectors machine e)) = 1).
Proof.
  split; [reflexivity |].
  rewrite extendedReadSectors_run.
  destruct (Z.eqb_spec (Engine.dl e) 0) as [Hdl | Hdl].
  - destruct (length _ =? 0)%nat; eexists; (split; [reflexivity | tauto]).
  - eexists. split; [reflexivity |]. intros _.
    destruct (dapError_flags e) as (Hcf & Hah & _).
    unfold final. simpl. auto.
Qed.

Lemma extendedReadSectors_reads_packet_first_witness :
  Engine.dl (dapRequest 0x80 1 0) <> 0 /\
  events (Disk.extendedReadSectors twoSectors (dapRequest 0x80 1 0)) =
    [EvRead 0x500 16; EvDebug (DbgDriveNotSupported 0x80)].
Proof.
  assert (Hdl : Engine.dl (dapRequest 0x80 1 0) <> 0)
    by (vm_compute; discriminate).
  destruct (extendedReadSectors_reads_packet_first twoSectors (dapRequest 0x80 1 0))
    as (_ & rest & Hevents & Hrest).
  destruct (Hrest Hdl) as (-> & _).
  split; [exact Hdl | exact Hevents].
Defined.

(** ** The dispatcher *)

Definition recognisedVectors : list Z :=
  [0x05; 0x10; 0x11; 0x12; 0x13; 0x14; 0x15; 0x16; 0x17; 0x18; 0x19; 0x1A].

Section Dispatch.

Variables h05 h10 h11 h12 h13 h14 h15 h16 h17 h18 h19 h1A : Machine -> M bool.

Let dispatch : Machine -> Z -> M bool :=
  onInterrupt h05 h10 h11 h12 h13 h14 h15 h16 h17 h18 h19 h1A.

(** The handler the dispatcher calls for each vector. *)
Let table : list (Z * (Machine -> M bool)) :=
  [(0x05, h05); (0x10, h10); (0x11, h11); (0x12, h12); (0x13, h13);
   (0x14, h14); (0x15, h15); (0x16, h16); (0x17, h17); (0x18, h18);
   (0x19, h19); (0x1A, h1A)].

Lemma dispatch_recognised (machine : Machine) (e : Engine.t) :
  Forall (fun entry =>
            dispatch machine (fst entry) e =
            (true, final (snd entry machine e), events (snd entry machine e)))
         table.
Proof.
  unfold table, dispatch, onInterrupt, bind, ret, final, events.
  repeat constructor; cbn [fst snd];
    match goal with
    | |- context [?h machine e] => destruct (h machine e) as [[b e'] t]
    end;
    cbn [fst snd]; rewrite app_nil_r; reflexivity.
Qed.

Lemma dispatch_unrecognised (machine : Machine) (i : Z) (e : Engine.t) :
  ~ In i recognisedVectors -> dispatch machine i e = (false, e, []).
Proof.
  unfold recognisedVectors, dispatch, onInterrupt. cbn [In]. intros Hi.
  destruct i as [| p | p]; try reflexivity.
  do 5 (try destruct p as [p | p |]); try reflexivity;
    exfalso; apply Hi; tauto.
Qed.

End Dispatch.

(** C5: the callback returns true exactly for the vectors 0x05, 0x10,
    0x11, 0x12, 0x13, 0x14, 0x15, 0x16, 0x17, 0x18, 0x19 and 0x1A, having
    run the handler of that vector (the engine and the trace are the ones
    that handler leaves); for every other number it returns false and has
    done nothing. *)
Theorem onInterrupt_serviced_iff_recognised
    (h05 h10 h11 h12 h13 h14 h15 h16 h17 h18 h19 h1A : Machine -> M bool)
    (machine : Machine) (i : Z) (e : Engine.t) :
  (result (onInterrupt h05 h10 h11 h12 h13 h14 h15 h16 h17 h18 h19 h1A
                       machine i e) = true
   <-> In i recognisedVectors) /\
  Forall (fun entry =>
            onInterrupt h05 h10 h11 h12 h13 h14 h15 h16 h17 h18 h19 h1A
                        machine (fst entry) e =
            (true, final (snd entry machine e), events (snd entry machine e)))
         [(0x05, h05); (0x10, h10); (0x11, h11); (0x12, h12); (0x13, h13);
          (0x14, h14); (0x15, h15); (0x16, h16); (0x17, h17); (0x18, h18);
          (0x19, h19); (0x1A, h1A)] /\
  (~ In i recognisedVectors ->
   onInterrupt h05 h10 h11 h12 h13 h14 h15 h16 h17 h18 h19 h1A machine i e =
   (false, e, [])).
Proof.
  pose proof (dispatch_recognised h05 h10 h11 h12 h13 h14 h15 h16 h17 h18
                                  h19 h1A machine e) as Htable.
  pose proof (dispatch_unrecognised h05 h10 h11 h12 h13 h14 h15 h16 h17 h18
                                    h19 h1A machine i e) as Hother.
  cbv zeta in Htable, Hother.
  split; [| split; assumption].
  destruct (In_dec Z.eq_dec i recognisedVectors) as [Hin | Hout].
  - split; [intros _; exact Hin | intros _].
    unfold recognisedVectors in Hin. cbn [In] in Hin.
    repeat (apply Forall_cons_iff in Htable;
            destruct Htable as [?Hentry Htable]).
    cbn [fst snd] in *.
    repeat (destruct Hin as [<- | Hin];
            [match goal with
             | Hentry : onInterrupt _ _ _ _ _ _ _ _ _ _ _ _ _ _ _ = _ |- _ =>
                 rewrite Hentry; reflexivity
             end |]).
    contradiction.
  - rewrite (Hother Hout). split; [discriminate | contradiction].
Qed.

(** A handler that does nothing. *)
Definition idle (machine : Machine) : M bool := ret false.

Lemma onInterrupt_serviced_iff_recognised_witness :
  ~ In 0x20 recognisedVectors /\
  onInterrupt idle idle idle idle Disk.reset idle idle idle idle idle idle idle
              twoSectors 0x20 (chsRequest 0) = (false, chsRequest 0, []) /\
  In 0x13 recognisedVectors /\
  result (onInterrupt idle idle idle idle Disk.reset idle idle idle idle idle
                      idle idle twoSectors 0x13 (chsRequest 0)) = true.
Proof.
  assert (Hout : ~ In 0x20 recognisedVectors).
  { unfold recognisedVectors. cbn [In]. intros H.
    repeat (destruct H as [H | H]; [discriminate |]). exact H. }
  assert (Hin : In 0x13 recognisedVectors).
  { unfold recognisedVectors. cbn [In]. tauto. }
  destruct (onInterrupt_serviced_iff_recognised
              idle idle idle idle Disk.reset idle idle idle idle idle idle idle
              twoSectors 0x20 (chsRequest 0)) as (_ & _ & Hother).
  destruct (onInterrupt_serviced_iff_recognised
              idle idle idle idle Disk.reset idle idle idle idle idle idle idle
              twoSectors 0x13 (chsRequest 0)) as ((_ & Hserviced) & _).
  split; [exact Hout |]. split; [exact (Hother Hout) |].
  split; [exact Hin | exact (Hserviced Hin)].
Defined.

(** ** Machine::start *)

(** C6: start runs the engine from physical address 0x7C00, which is the
    linear address of 0000:7C00, on the machine's own engine, and hands
    back what the engine answers. *)
Theorem start_runs_from_0x7C00
    (Engine_start : Z -> M bool) (machine : Machine) :
  start Engine_start machine = Engine_start 0x7C00 (_engine machine) /\
  Engine.getAddress 0x0000 0x7C00 = 0x7C00 /\
  result (start Engine_start machine) =
    result (Engine_start (Engine.getAddress 0x0000 0x7C00) (_engine machine)).
Proof. repeat split. Qed.

(** * Further properties of the disk handlers *)

Definition isRead (ev : Event) : bool :=
  match ev with EvRead _ _ => true | _ => false end.

Definition reads (evs : list Event) : list Event := filter isRead evs.

(** The registers no disk read handler is meant to answer in. *)
Definition otherRegisters (e : Engine.t) : Z * Z * Z * Z * Z * Z * Z * Z * Z :=
  (Engine.r_bx e, Engine.r_cx e, Engine.r_dx e, Engine.r_si e, Engine.r_di e,
   Engine.r_cs e, Engine.r_ds e, Engine.r_es e, Engine.r_ss e).

(** ** INT 13h / AH=41h: check extensions *)

(** X1: checkExtensions answers BX=0xAA55, CX=7 (so CH=0, CL=7), AH=0 and CF=0
    whatever it is called with: it tests neither the BX=0x55AA signature nor
    the drive in DL.  AL, DX, SI, DI and the segment registers stay as they
    were, and guest memory is neither read nor written. *)
Theorem checkExtensions_answer (machine : Machine) (e : Engine.t) :
  Engine.bx (final (Disk.checkExtensions machine e)) = 0xAA55 /\
  Engine.cx (final (Disk.checkExtensions machine e)) = 7 /\
  Engine.ch (final (Disk.checkExtensions machine e)) = 0 /\
  Engine.cl (final (Disk.checkExtensions machine e)) = 7 /\
  Engine.ah (final (Disk.checkExtensions machine e)) = 0 /\
  Engine.cf (final (Disk.checkExtensions machine e)) = false /\
  Engine.al (final (Disk.checkExtensions machine e)) = Engine.al e /\
  (Engine.r_dx (final (Disk.checkExtensions machine e)) = Engine.r_dx e /\
   Engine.r_si (final (Disk.checkExtensions machine e)) = Engine.r_si e /\
   Engine.r_di (final (Disk.checkExtensions machine e)) = Engine.r_di e /\
   Engine.r_cs (final (Disk.checkExtensions machine e)) = Engine.r_cs e /\
   Engine.r_ds (final (Disk.checkExtensions machine e)) = Engine.r_ds e /\
   Engine.r_es (final (Disk.checkExtensions machine e)) = Engine.r_es e /\
   Engine.r_ss (final (Disk.checkExtensions machine e)) = Engine.r_ss e) /\
  Engine.memory (final (Disk.checkExtensions machine e)) = Engine.memory e /\
  reads (events (Disk.checkExtensions machine e)) = [] /\
  writes (events (Disk.checkExtensions machine e)) = [].
Proof.
  rewrite checkExtensions_run. unfold final, events, reads, writes.
  cbn [fst snd filter isRead isWrite].
  unfold Engine.bx, Engine.cx, Engine.ch, Engine.cl, Engine.ah, Engine.al,
    Engine.cf. cbn.
  rewrite hi8_set_hi8, lo8_set_hi8.
  repeat split.
Qed.

(** ** The carry flag and AH of the two reads *)

(** X2: readSectors always sets CF and AH afresh: it ends with CF=1 exactly
    when the drive is not 0 or the image read is empty, with CF=0 exactly
    when the drive is 0 and the read is not empty; AH is 1 with CF=1 and 0
    with CF=0; and the handler has written to guest memory exactly when it
    ends with CF=0. *)
Theorem readSectors_carry (machine : Machine) (e : Engine.t) :
  (Engine.cf (final (Disk.readSectors machine e)) = true <->
   Engine.dl e <> 0 \/ chsBytes machine e = []) /\
  (Engine.cf (final (Disk.readSectors machine e)) = false <->
   Engine.dl e = 0 /\ chsBytes machine e <> []) /\
  Engine.ah (final (Disk.readSectors machine e)) =
    (if Engine.cf (final (Disk.readSectors machine e)) then 1 else 0) /\
  (writes (events (Disk.readSectors machine e)) <> [] <->
   Engine.cf (final (Disk.readSectors machine e)) = false).
Proof.
  rewrite readSectors_run.
  destruct (chsError_flags e) as (Hcf & Hah & _).
  destruct (chsSuccess_flags (chsDestination e) (chsBytes machine e) e)
    as (Hcf' & Hah' & _).
  destruct (Z.eqb_spec (Engine.dl e) 0) as [Hdl | Hdl];
    [destruct (length (chsBytes machine e) =? 0)%nat eqn:Hlen;
     [apply length_eqb_nil in Hlen | apply length_eqb_cons in Hlen] |];
    unfold final, events, writes; cbn [fst snd filter isWrite];
    rewrite ?Hcf, ?Hah, ?Hcf', ?Hah';
    repeat split; intros; try tauto; try discriminate; try congruence.
  all: try (destruct H; congruence).
Qed.

Lemma readSectors_carry_witness :
  Engine.dl (chsRequest 0x80) <> 0 /\
  Engine.cf (final (Disk.readSectors twoSectors (chsRequest 0x80))) = true /\
  writes (events (Disk.readSectors twoSectors (chsRequest 0))) <> [] /\
  Engine.cf (final (Disk.readSectors twoSectors (chsRequest 0))) = false.
Proof.
  assert (Hdl : Engine.dl (chsRequest 0x80) <> 0) by (vm_compute; discriminate).
  assert (Hw : writes (events (Disk.readSectors twoSectors (chsRequest 0))) <> [])
    by (vm_compute; discriminate).
  destruct (readSectors_carry twoSectors (chsRequest 0x80)) as ((_ & H1) & _).
  destruct (readSectors_carry twoSectors (chsRequest 0)) as (_ & _ & _ & (H2 & _)).
  split; [exact Hdl |]. split; [apply H1; left; exact Hdl |].
  split; [exact Hw | exact (H2 Hw)].
Defined.

(** X3: extendedReadSectors always sets CF and AH afresh, in the same way:
    CF=1 exactly when the drive is not 0 or the image read is empty, AH=1
    with CF=1 and AH=0 with CF=0, and a write to guest memory exactly when
    it ends with CF=0. *)
Theorem extendedReadSectors_carry (machine : Machine) (e : Engine.t) :
  (Engine.cf (final (Disk.extendedReadSectors machine e)) = true <->
   Engine.dl e <> 0 \/ dapBytes machine e = []) /\
  (Engine.cf (final (Disk.extendedReadSectors machine e)) = false <->
   Engine.dl e = 0 /\ dapBytes machine e <> []) /\
  Engine.ah (final (Disk.extendedReadSectors machine e)) =
    (if Engine.cf (final (Disk.extendedReadSectors machine e)) then 1 else 0) /\
  (writes (events (Disk.extendedReadSectors machine e)) <> [] <->
   Engine.cf (final (Disk.extendedReadSectors machine e)) = false).
Proof.
  rewrite extendedReadSectors_run.
  destruct (dapError_flags e) as (Hcf & Hah & _).
  destruct (dapSuccess_flags (dapDestination e) (dapBytes machine e) e)
    as (Hcf' & Hah' & _).
  destruct (Z.eqb_spec (Engine.dl e) 0) as [Hdl | Hdl];
    [destruct (length (dapBytes machine e) =? 0)%nat eqn:Hlen;
     [apply length_eqb_nil in Hlen | apply length_eqb_cons in Hlen] |];
    unfold final, events, writes; cbn [fst snd filter isWrite];
    rewrite ?Hcf, ?Hah, ?Hcf', ?Hah';
    repeat split; intros; try tauto; try discriminate; try congruence.
  all: try (destruct H; congruence).
Qed.

Lemma extendedReadSectors_carry_witness :
  dapBytes twoSectors (dapRequest 0 9 0) = [] /\
  Engine.cf (final (Disk.extendedReadSectors twoSectors (dapRequest 0 9 0)))
    = true /\
  writes (events (Disk.extendedReadSectors twoSectors (dapRequest 0 1 0)))
    <> [] /\
  Engine.cf (final (Disk.extendedReadSectors twoSectors (dapRequest 0 1 0)))
    = false.
Proof.
  assert (Hnone : dapBytes twoSectors (dapRequest 0 9 0) = []) by reflexivity.
  assert (Hw : writes (events (Disk.extendedReadSectors twoSectors
                                 (dapRequest 0 1 0))) <> [])
    by (vm_compute; discriminate).
  destruct (extendedReadSectors_carry twoSectors (dapRequest 0 9 0))
    as ((_ & H1) & _).
  destruct (extendedReadSectors_carry twoSectors (dapRequest 0 1 0))
    as (_ & _ & _ & (H2 & _)).
  split; [exact Hnone |]. split; [apply H1; right; exact Hnone |].
  split; [exact Hw | exact (H2 Hw)].
Defined.

(** ** Guest memory accesses *)

(** X4: reset, readSectors and checkExtensions never read guest memory;
    extendedReadSectors reads it exactly once on every path, the 16 bytes
    of the packet at DS:SI; and neither read handler writes more than
    once. *)
Theorem disk_memory_accesses (machine : Machine) (e : Engine.t) :
  reads (events (Disk.reset machine e)) = [] /\
  reads (events (Disk.checkExtensions machine e)) = [] /\
  reads (events (Disk.readSectors machine e)) = [] /\
  reads (events (Disk.extendedReadSectors machine e)) =
    [EvRead (dapAddress e) 16] /\
  (length (writes (events (Disk.readSectors machine e))) <= 1)%nat /\
  (length (writes (events (Disk.extendedReadSectors machine e))) <= 1)%nat.
Proof.
  rewrite readSectors_run, extendedReadSectors_run.
  destruct (Engine.dl e =? 0);
    [destruct (length (chsBytes machine e) =? 0)%nat;
     destruct (length (dapBytes machine e) =? 0)%nat |];
    cbn; repeat split; lia.
Qed.

(** ** Registers the reads leave alone *)

(** X5: extendedReadSectors changes no register but AH and the carry flag, on
    any of its paths: AL, BX, CX, DX, SI, DI and the segment registers end
    as they began. *)
Theorem extendedReadSectors_keeps_registers (machine : Machine) (e : Engine.t) :
  Engine.al (final (Disk.extendedReadSectors machine e)) = Engine.al e /\
  otherRegisters (final (Disk.extendedReadSectors machine e)) =
    otherRegisters e.
Proof.
  rewrite extendedReadSectors_run.
  destruct (dapError_flags e) as (_ & _ & Hal & _).
  destruct (dapSuccess_flags (dapDestination e) (dapBytes machine e) e)
    as (_ & _ & Hal' & _).
  destruct (Engine.dl e =? 0);
    [destruct (length (dapBytes machine e) =? 0)%nat |];
    unfold final; cbn [fst snd]; split; assumption || reflexivity.
Qed.

(** X6: readSectors changes no register but AX and the carry flag; AL ends as
    the sector count it was called with when the call succeeds and as 0
    when it fails. *)
Theorem readSectors_keeps_registers (machine : Machine) (e : Engine.t) :
  otherRegisters (final (Disk.readSectors machine e)) = otherRegisters e /\
  Engine.al (final (Disk.readSectors machine e)) =
    (if Engine.cf (final (Disk.readSectors machine e)) then 0
     else Engine.al e).
Proof.
  rewrite readSectors_run.
  destruct (chsError_flags e) as (Hcf & _ & Hal & _).
  destruct (chsSuccess_flags (chsDestination e) (chsBytes machine e) e)
    as (Hcf' & _ & Hal' & _).
  destruct (Engine.dl e =? 0);
    [destruct (length (chsBytes machine e) =? 0)%nat |];
    unfold final; cbn [fst snd]; rewrite ?Hcf, ?Hcf';
    split; assumption || reflexivity.
Qed.

(** ** Guest memory outside the transfer *)

(** X7: whatever extendedReadSectors does, a byte of guest memory outside
    the range that starts at destinationSegment:destinationOffset and is as
    long as the vector the image returned is left as it was. *)
Theorem extendedReadSectors_frame (machine : Machine) (e : Engine.t) (a : Z) :
  a < dapDestination e \/
  dapDestination e + Z.of_nat (length (dapBytes machine e)) <= a ->
  Engine.memory (final (Disk.extendedReadSectors machine e)) a =
    Engine.memory e a.
Proof.
  intros Ha. rewrite extendedReadSectors_run.
  destruct (Engine.dl e =? 0);
    [destruct (length (dapBytes machine e) =? 0)%nat |];
    unfold final; cbn [fst snd]; try reflexivity.
  destruct (dapSuccess_flags (dapDestination e) (dapBytes machine e) e)
    as (_ & _ & _ & Hmem).
  rewrite Hmem. apply poke_outside. exact Ha.
Qed.

Lemma extendedReadSectors_frame_witness :
  0x500 < dapDestination (dapRequest 0 1 0) /\
  Engine.memory (final (Disk.extendedReadSectors twoSectors (dapRequest 0 1 0)))
                0x500 = 16.
Proof.
  assert (Hlow : 0x500 < dapDestination (dapRequest 0 1 0)) by reflexivity.
  split; [exact Hlow |].
  rewrite (extendedReadSectors_frame twoSectors (dapRequest 0 1 0) 0x500
             (or_introl Hlow)).
  reflexivity.
Defined.

(** ** Repeating a successful read *)

Lemma poke_poke (mem : Z -> Z) (address : Z) (bytes : list Z) (a : Z) :
  Engine.poke (Engine.poke mem address bytes) address bytes a =
  Engine.poke mem address bytes a.
Proof.
  unfold Engine.poke.
  destruct ((address <=? a) && (a <? address + Z.of_nat (length bytes)));
    reflexivity.
Qed.

Lemma peek_poke_disjoint (mem : Z -> Z) (address : Z) (bytes : list Z)
    (from size : Z) :
  from + size <= address \/ address + Z.of_nat (length bytes) <= from ->
  Engine.peek (Engine.poke mem address bytes) from size =
  Engine.peek mem from size.
Proof.
  intros Hdisjoint. unfold Engine.peek.
  apply map_ext_in. intros i Hi. apply in_seq in Hi.
  apply poke_outside. lia.
Qed.

Lemma ax_after_success (r : Z) :
  set_lo8 (set_hi8 (set_lo8 (set_hi8 r 0) (lo8 r)) 0) (lo8 r) =
  set_lo8 (set_hi8 r 0) (lo8 r).
Proof. unfold set_lo8, set_hi8, lo8. bitwise. Qed.

(** X8: a successful readSectors can be repeated: called again on the engine
    it left, the handler asks the image for the same sectors, writes the
    same bytes to the same address, succeeds again, and leaves every
    register and every byte of guest memory as the first call left them. *)
Theorem readSectors_repeat (machine : Machine) (e : Engine.t) :
  Engine.dl e = 0 ->
  chsBytes machine e <> [] ->
  writes (events (Disk.readSectors machine (final (Disk.readSectors machine e))))
    = writes (events (Disk.readSectors machine e)) /\
  Engine.cf (final (Disk.readSectors machine
                      (final (Disk.readSectors machine e)))) = false /\
  Engine.r_ax (final (Disk.readSectors machine
                        (final (Disk.readSectors machine e)))) =
    Engine.r_ax (final (Disk.readSectors machine e)) /\
  otherRegisters (final (Disk.readSectors machine
                           (final (Disk.readSectors machine e)))) =
    otherRegisters (final (Disk.readSectors machine e)) /\
  forall a : Z,
    Engine.memory (final (Disk.readSectors machine
                            (final (Disk.readSectors machine e)))) a =
    Engine.memory (final (Disk.readSectors machine e)) a.
Proof.
  intros Hdl Hbytes. pose proof Hbytes as Hlen.
  apply length_eqb_cons in Hlen.
  pose proof (readSectors_run machine e) as Hrun.
  rewrite Hdl, Hlen in Hrun. simpl (0 =? 0) in Hrun.
  set (e1 := Engine.set_al _ _) in Hrun.
  rewrite Hrun. unfold final, events. cbn [fst snd].
  assert (Hal : Engine.al e1 = Engine.al e).
  { unfold e1, Engine.al. simpl. rewrite lo8_set_lo8. apply lo8_lo8. }
  assert (Hsame : chsBytes machine e1 = chsBytes machine e).
  { unfold chsBytes. rewrite Hal. reflexivity. }
  assert (Hdest : chsDestination e1 = chsDestination e) by reflexivity.
  assert (Hdl1 : Engine.dl e1 = 0) by exact Hdl.
  rewrite (readSectors_run machine e1), Hdl1, Hsame, Hlen, Hdest, Hal.
  simpl (0 =? 0). unfold final, events, writes.
  cbn [fst snd filter isWrite].
  repeat split.
  - unfold e1. simpl. unfold Engine.al. apply ax_after_success.
  - intros a. unfold e1. simpl. apply poke_poke.
Qed.

Lemma readSectors_repeat_witness :
  Engine.dl (chsRequest 0) = 0 /\
  chsBytes twoSectors (chsRequest 0) <> [] /\
  Engine.cf (final (Disk.readSectors twoSectors
                      (final (Disk.readSectors twoSectors (chsRequest 0)))))
    = false.
Proof.
  assert (Hbytes : chsBytes twoSectors (chsRequest 0) <> [])
    by (vm_compute; discriminate).
  destruct (readSectors_repeat twoSectors (chsRequest 0) eq_refl Hbytes)
    as (_ & Hcf & _).
  split; [reflexivity |]. split; [exact Hbytes | exact Hcf].
Defined.

(** X9: a successful extendedReadSectors whose transfer does not land on the
    packet itself can be repeated: called again on the engine it left, the
    handler finds the same packet, writes the same bytes to the same
    address, succeeds again, and leaves every register and every byte of
    guest memory as the first call left them. *)
Theorem extendedReadSectors_repeat (machine : Machine) (e : Engine.t) :
  Engine.dl e = 0 ->
  dapBytes machine e <> [] ->
  dapAddress e + 16 <= dapDestination e \/
  dapDestination e + Z.of_nat (length (dapBytes machine e)) <= dapAddress e ->
  writes (events (Disk.extendedReadSectors machine
                    (final (Disk.extendedReadSectors machine e))))
    = writes (events (Disk.extendedReadSectors machine e)) /\
  Engine.cf (final (Disk.extendedReadSectors machine
                      (final (Disk.extendedReadSectors machine e)))) = false /\
  Engine.r_ax (final (Disk.extendedReadSectors machine
                        (final (Disk.extendedReadSectors machine e)))) =
    Engine.r_ax (final (Disk.extendedReadSectors machine e)) /\
  otherRegisters (final (Disk.extendedReadSectors machine
                           (final (Disk.extendedReadSectors machine e)))) =
    otherRegisters (final (Disk.extendedReadSectors machine e)) /\
  forall a : Z,
    Engine.memory (final (Disk.extendedReadSectors machine
                            (final (Disk.extendedReadSectors machine e)))) a =
    Engine.memory (final (Disk.extendedReadSectors machine e)) a.
Proof.
  intros Hdl Hbytes Hapart. pose proof Hbytes as Hlen.
  apply length_eqb_cons in Hlen.
  pose proof (extendedReadSectors_run machine e) as Hrun.
  rewrite Hdl, Hlen in Hrun. simpl (0 =? 0) in Hrun.
  set (e1 := Engine.set_ah _ _) in Hrun.
  rewrite Hrun. unfold final, events. cbn [fst snd].
  assert (Haddr : dapAddress e1 = dapAddress e) by reflexivity.
  assert (Hdap : dapAt e1 = dapAt e).
  { unfold dapAt. rewrite Haddr. unfold e1. simpl.
    rewrite peek_poke_disjoint; [reflexivity |].
    unfold FAT.DAP.DataSize. exact Hapart. }
  assert (Hsame : dapBytes machine e1 = dapBytes machine e).
  { unfold dapBytes, dapOffset, dapSize. rewrite Hdap. reflexivity. }
  assert (Hdest : dapDestination e1 = dapDestination e).
  { unfold dapDestination. rewrite Hdap. reflexivity. }
  assert (Hdl1 : Engine.dl e1 = 0) by exact Hdl.
  rewrite (extendedReadSectors_run machine e1), Hdl1, Hsame, Hlen, Hdest.
  simpl (0 =? 0). unfold final, events, writes.
  cbn [fst snd filter isWrite].
  repeat split.
  - unfold e1. simpl. apply set_hi8_set_hi8.
  - intros a. unfold e1. simpl. apply poke_poke.
Qed.

Lemma extendedReadSectors_repeat_witness :
  Engine.dl (dapRequest 0 1 0) = 0 /\
  dapBytes twoSectors (dapRequest 0 1 0) <> [] /\
  dapAddress (dapRequest 0 1 0) + 16 <= dapDestination (dapRequest 0 1 0) /\
  Engine.cf (final (Disk.extendedReadSectors twoSectors
                      (final (Disk.extendedReadSectors twoSectors
                                (dapRequest 0 1 0))))) = false.
Proof.
  assert (Hbytes : dapBytes twoSectors (dapRequest 0 1 0) <> [])
    by (vm_compute; discriminate).
  assert (Hapart : dapAddress (dapRequest 0 1 0) + 16 <=
                   dapDestination (dapRequest 0 1 0))
    by (vm_compute; discriminate).
  destruct (extendedReadSectors_repeat twoSectors (dapRequest 0 1 0) eq_refl
              Hbytes (or_introl Hapart)) as (_ & Hcf & _).
  split; [reflexivity |]. split; [exact Hbytes |].
  split; [exact Hapart | exact Hcf].
Defined.

(** The condition is needed.  A packet at 0000:0500 that sends block 0 to
    0000:0500 is overwritten by the transfer: the first call succeeds, the
    second finds a packet of 0xAB bytes, whose block lies past the end of
    the image, and fails. *)
Definition ontoItsPacket : Engine.t :=
  guest 0x4200 0 0 0 0x0500 0 0
    (fun a => if a =? 0x500 then 16
              else if a =? 0x502 then 1
              else if a =? 0x505 then 0x05
              else 0).

Example extendedReadSectors_onto_its_packet :
  dapDestination ontoItsPacket = dapAddress ontoItsPacket /\
  Engine.cf (final (Disk.extendedReadSectors twoSectors ontoItsPacket))
    = false /\
  Engine.cf (final (Disk.extendedReadSectors twoSectors
                      (final (Disk.extendedReadSectors twoSectors
                                ontoItsPacket)))) = true.
Proof. vm_compute. repeat split. Qed.
